(** * The AWS client facade of osdctl: [pkg/provider/aws/client.go]

    A shallow embedding of the two constructors [NewAwsClient] and
    [NewAwsClientWithInput] and of the fourteen forwarding methods of
    [*AwsClient], together with the properties the specification states about
    them.

    The file calls into the Go standard library ([filepath.Abs]), into
    aws-sdk-go ([session], [credentials], [awserr], the three service
    packages) and into [github.com/pkg/errors].  None of that code belongs to
    the repository: the calls whose result depends on the machine or on the
    network are fields of the class [SDK]; the few library functions the
    control flow depends on ([errors.Wrap], [session.Must], the type
    assertion to [awserr.Error]) are written out after their sources. *)

From stdpp Require Import base option strings list gmap.

Local Open Scope string_scope.
Local Open Scope list_scope.

(** ** Go values *)

(** The methods of the interface [Client], in the order of its declaration. *)
Inductive Op : Type :=
  | OpAssumeRole | OpGetCallerIdentity | OpGetFederationToken
  | OpListBuckets | OpDeleteBucket | OpListObjects | OpDeleteObjects
  | OpCreateAccessKey | OpDeleteAccessKey | OpListAccessKeys
  | OpGetUser | OpCreateUser | OpListUsers | OpAttachUserPolicy.

(** The three services behind the facade; the interface groups its methods
    under the comments [// sts], [// S3] and [//iam]. *)
Inductive Service : Type := STS | S3 | IAM.

Definition service_of (op : Op) : Service :=
  match op with
  | OpAssumeRole | OpGetCallerIdentity | OpGetFederationToken => STS
  | OpListBuckets | OpDeleteBucket | OpListObjects | OpDeleteObjects => S3
  | _ => IAM
  end.

(** A non-nil value of the Go interface [error], by dynamic type.  A value of
    the interface itself is an [option error], [None] being [nil].
    - [AwsErr code message]: a dynamic type that implements [awserr.Error]
      (what [awserr.New] builds), with its [Code()] and [Message()];
    - [PlainErr text]: any dynamic type that does not implement
      [awserr.Error] ([errors.New], [fmt.Errorf], [*os.PathError], ...);
    - [WithStack cause message]: what [errors.Wrap cause message] builds, a
      [*withStack] around a [*withMessage]; it has no [Code] method and so
      does not implement [awserr.Error] either. *)
Inductive error : Type :=
  | AwsErr (code message : string)
  | PlainErr (text : string)
  | WithStack (cause : error) (message : string).

(** [errors.Wrap]: nil for a nil error, the annotated error otherwise. *)
Definition errors_Wrap (err : option error) (message : string) : option error :=
  match err with
  | None => None
  | Some cause => Some (WithStack cause message)
  end.

(** The type assertion [aerr, ok := err.(awserr.Error)]: [Some aerr] when [ok].
    It fails on nil and on every dynamic type without the methods of
    [awserr.Error]. *)
Definition assert_awserr (err : option error) : option error :=
  match err with
  | Some (AwsErr code message) => Some (AwsErr code message)
  | _ => None
  end.

(** [aerr.Code()]. *)
Definition Code (aerr : error) : string :=
  match aerr with
  | AwsErr code _ => code
  | _ => ""
  end.

(** [AwsClientInput], the input of [NewAwsClientWithInput]. *)
Record AwsClientInput : Type := {
  AccessKeyID : string;
  SecretAccessKey : string;
  SessionToken : string;
  Region : string
}.

(** [credentials.Value], what a credential provider yields. *)
Record Value : Type := {
  v_AccessKeyID : string;
  v_SecretAccessKey : string;
  v_SessionToken : string;
  ProviderName : string
}.

(** [*credentials.Credentials] as far as this file builds them. *)
Inductive Credentials : Type :=
  | StaticCredentials (id secret token : string).

Definition credentials_NewStaticCredentials (id secret token : string) : Credentials :=
  StaticCredentials id secret token.

(** [aws.String]: a pointer to a copy of the string. *)
Definition aws_String (s : string) : option string := Some s.

(** The fields of [aws.Config] and of [session.Options] the constructors
    set; every other field keeps its zero value.  A nil slice is [[]]. *)
Record Config : Type := {
  cfg_Credentials : option Credentials;
  cfg_Region : option string
}.

Record Options : Type := {
  opt_Config : Config;
  Profile : string;
  SharedConfigFiles : list string
}.

(** What a [panic] carries: the error handed to [panic(err)], or the run-time
    error of a nil dereference. *)
Inductive panic_value : Type :=
  | PanicError (e : error)
  | NilDereference.

(** Addresses of [AwsClient] objects; a [*AwsClient] (and a [Client] holding
    one) is an [option loc]. *)
Abbreviation loc := positive.

(** The types of the SDK that stay abstract: the state of everything outside
    the process (the AWS account, the file system, the environment), the
    session handle, and the request and response structures of each
    operation. *)
Class SDKTypes : Type := {
  W : Type;
  Session : Type;
  Input : Op → Type;
  Output : Op → Type
}.

Section Model.
Context {T : SDKTypes}.

(** A request method of a sub-client: it takes the pointer to the input
    structure and acts on the outside world. *)
Definition SubCall (op : Op) : Type :=
  option (Input op) → W → (option (Output op) * option error) * W.

(** The methods of [stsiface.STSAPI], [s3iface.S3API] and [iamiface.IAMAPI]
    the facade calls. *)
Record STSAPI : Type := {
  sts_AssumeRole : SubCall OpAssumeRole;
  sts_GetCallerIdentity : SubCall OpGetCallerIdentity;
  sts_GetFederationToken : SubCall OpGetFederationToken
}.

Record S3API : Type := {
  s3_ListBuckets : SubCall OpListBuckets;
  s3_DeleteBucket : SubCall OpDeleteBucket;
  s3_ListObjects : SubCall OpListObjects;
  s3_DeleteObjects : SubCall OpDeleteObjects
}.

Record IAMAPI : Type := {
  iam_CreateAccessKey : SubCall OpCreateAccessKey;
  iam_DeleteAccessKey : SubCall OpDeleteAccessKey;
  iam_ListAccessKeys : SubCall OpListAccessKeys;
  iam_GetUser : SubCall OpGetUser;
  iam_CreateUser : SubCall OpCreateUser;
  iam_ListUsers : SubCall OpListUsers;
  iam_AttachUserPolicy : SubCall OpAttachUserPolicy
}.

(** [type AwsClient struct]: three interface-typed fields, [None] for a nil
    interface value. *)
Record AwsClient : Type := {
  iamClient : option IAMAPI;
  stsClient : option STSAPI;
  s3Client : option S3API
}.

(** The calls that leave the package, as they are logged: the function, its
    arguments and what it returned. *)
Inductive Event : Type :=
  | EvAbs (path : string) (res : string * option error)
  | EvNewSessionWithOptions (opt : Options) (res : Session + error)
  | EvNewSession (cfg : Config) (res : Session + error)
  | EvCredentialsGet (sess : Session) (res : Value * option error)
  | EvCall (op : Op) (input : option (Input op))
           (res : option (Output op) * option error).

(** The machine state: the outside world, the log of external calls made
    so far, and the heap of facade objects. *)
Record State : Type := {
  world : W;
  trace : list Event;
  heap : gmap loc AwsClient
}.

Inductive outcome (A : Type) : Type :=
  | Returned (a : A) (σ : State)
  | Panicked (v : panic_value) (σ : State).
Global Arguments Returned {A} a σ.
Global Arguments Panicked {A} v σ.

Definition final {A} (o : outcome A) : State :=
  match o with
  | Returned _ σ => σ
  | Panicked _ σ => σ
  end.

(** Go code: a state transformer that returns or panics. *)
Definition Go (A : Type) : Type := State → outcome A.

Global Instance Go_ret : MRet Go := λ A a σ, Returned a σ.
Global Instance Go_bind : MBind Go := λ A B k m σ,
  match m σ with
  | Returned a σ' => k a σ'
  | Panicked v σ' => Panicked v σ'
  end.

Definition panic {A} (v : panic_value) : Go A := λ σ, Panicked v σ.

(** A call out of the package: run on the outside world, and logged with
    its result. *)
Definition extern {A} (ev : A → Event) (f : W → A * W) : Go A := λ σ,
  let '(a, w) := f (world σ) in
  Returned a {| world := w; trace := trace σ ++ [ev a]; heap := heap σ |}.

(** The external calls made between a state and the end of a run from it. *)
Definition calls {A} (σ : State) (o : outcome A) : list Event :=
  drop (length (trace σ)) (trace (final o)).

(** The options of the sessions created with [session.NewSessionWithOptions]
    in a log, in order. *)
Definition session_options (tr : list Event) : list Options :=
  omap (λ ev, match ev with
              | EvNewSessionWithOptions opt _ => Some opt
              | _ => None
              end) tr.

(** The paths handed to [filepath.Abs] in a log. *)
Definition resolved_paths (tr : list Event) : list string :=
  omap (λ ev, match ev with
              | EvAbs path _ => Some path
              | _ => None
              end) tr.

(** The sessions whose credentials were probed in a log, with the result. *)
Definition credential_probes (tr : list Event) : list (Session * option error) :=
  omap (λ ev, match ev with
              | EvCredentialsGet sess res => Some (sess, res.2)
              | _ => None
              end) tr.

(** [&AwsClient{...}]: a new object at an unused address. *)
Definition alloc (obj : AwsClient) : Go loc := λ σ,
  let l := fresh (dom (heap σ)) in
  Returned l {| world := world σ; trace := trace σ; heap := <[l := obj]> (heap σ) |}.

(** Reading through a [*AwsClient]. *)
Definition deref (c : option loc) : Go AwsClient := λ σ,
  match c with
  | None => Panicked NilDereference σ
  | Some l =>
      match heap σ !! l with
      | Some obj => Returned obj σ
      | None => Panicked NilDereference σ
      end
  end.

(** The receiver of a method call through an interface value. *)
Definition nonnil {A} (x : option A) : Go A :=
  match x with
  | Some a => mret a
  | None => panic NilDereference
  end.

(** The functions of the Go library and of aws-sdk-go whose results depend
    on the outside world, and the three service constructors.  A
    constructor of the SDK returns either a session or an error; [svc.New]
    returns a pointer to a fresh client, never nil. *)
Class SDK : Type := {
  filepath_Abs : string → W → (string * option error) * W;
  session_NewSessionWithOptions : Options → W → (Session + error) * W;
  session_NewSession : Config → W → (Session + error) * W;
  Credentials_Get : Session → W → (Value * option error) * W;
  iam_New : Session → IAMAPI;
  sts_New : Session → STSAPI;
  s3_New : Session → S3API
}.

Context {sdk : SDK}.

(** [session.Must]: panics with the error when there is one. *)
Definition session_Must (r : Go (Session + error)) : Go Session :=
  r ← r;
  match r with
  | inl sess => mret sess
  | inr err => panic (PanicError err)
  end.

(** [NewAwsClient creates an AWS client with credentials in the environment]
    (lines 61-95).  The [if] block either leaves the function ([inl], the
    [return nil, err] of line 73) or goes on with the options ([inr]).  The
    [switch] on the error code keeps its two cases, which return the same. *)
Definition NewAwsClient (profile region configFile : string)
  : Go (option loc * option error) :=
  let opt := {| opt_Config := {| cfg_Credentials := None; cfg_Region := aws_String region |};
                Profile := profile;
                SharedConfigFiles := [] |} in
  (* only set config file if it is not empty *)
  r ← (if decide (configFile ≠ "") then
         '(absCfgPath, err) ← extern (EvAbs configFile) (filepath_Abs configFile);
         match err with
         | Some e => mret (inl (None, Some e))
         | None => mret (inr {| opt_Config := opt_Config opt;
                                Profile := Profile opt;
                                SharedConfigFiles := [absCfgPath] |})
         end
       else mret (inr opt));
  match r with
  | inl early => mret early
  | inr opt =>
      sess ← session_Must (extern (EvNewSessionWithOptions opt)
                                  (session_NewSessionWithOptions opt));
      '(_, err) ← extern (EvCredentialsGet sess) (Credentials_Get sess);
      match assert_awserr err with
      | Some aerr =>
          if String.eqb (Code aerr) "NoCredentialProviders"
          then mret (None, errors_Wrap err "Could not create AWS session")
          else mret (None, errors_Wrap err "Could not create AWS session")
      | None =>
          c ← alloc {| iamClient := Some (iam_New sess);
                       stsClient := Some (sts_New sess);
                       s3Client := Some (s3_New sess) |};
          mret (Some c, None)
      end
  end.

(** [NewAwsClientWithInput creates an AWS client with input credentials]
    (lines 98-114).  Reading the fields of a nil [input] panics. *)
Definition NewAwsClientWithInput (input : option AwsClientInput)
  : Go (option loc * option error) :=
  input ← nonnil input;
  let config :=
    {| cfg_Credentials :=
         Some (credentials_NewStaticCredentials
                 (AccessKeyID input) (SecretAccessKey input) (SessionToken input));
       cfg_Region := aws_String (Region input) |} in
  r ← extern (EvNewSession config) (session_NewSession config);
  match r with
  | inr err => mret (None, Some err)
  | inl s =>
      c ← alloc {| iamClient := Some (iam_New s);
                   stsClient := Some (sts_New s);
                   s3Client := Some (s3_New s) |};
      mret (Some c, None)
  end.

(** *** The runs of the constructors, case by case

    The same two functions once more, as the list of ways a run can end with
    the calls it makes on the way.  [NewAwsClient_run_sound] and
    [NewAwsClientWithInput_run_sound] show that every run of the functions
    above is one of these; the properties below are read off by inversion. *)

(** The options [NewAwsClient] starts from. *)
Definition initial_options (profile region : string) : Options :=
  {| opt_Config := {| cfg_Credentials := None; cfg_Region := aws_String region |};
     Profile := profile;
     SharedConfigFiles := [] |}.

Definition with_config_file (opt : Options) (path : string) : Options :=
  {| opt_Config := opt_Config opt; Profile := Profile opt; SharedConfigFiles := [path] |}.

(** The facade both constructors build from a session. *)
Definition facade_of (sess : Session) : AwsClient :=
  {| iamClient := Some (iam_New sess);
     stsClient := Some (sts_New sess);
     s3Client := Some (s3_New sess) |}.

(** The config-file step from world [w0]: the calls made, the world after
    them, and the options to go on with or the error that ends the run. *)
Inductive config_step (profile region configFile : string) (w0 : W)
  : list Event → W → Options + error → Prop :=
  | config_empty :
      configFile = "" →
      config_step profile region configFile w0 [] w0 (inl (initial_options profile region))
  | config_abs abs w :
      configFile ≠ "" →
      filepath_Abs configFile w0 = ((abs, None), w) →
      config_step profile region configFile w0 [EvAbs configFile (abs, None)] w
        (inl (with_config_file (initial_options profile region) abs))
  | config_abs_error abs e w :
      configFile ≠ "" →
      filepath_Abs configFile w0 = ((abs, Some e), w) →
      config_step profile region configFile w0 [EvAbs configFile (abs, Some e)] w (inr e).

Inductive NewAwsClient_run (profile region configFile : string) (σ : State)
  : outcome (option loc * option error) → Prop :=
  | run_abs_error evs w e :
      config_step profile region configFile (world σ) evs w (inr e) →
      NewAwsClient_run profile region configFile σ
        (Returned (None, Some e)
           {| world := w; trace := trace σ ++ evs; heap := heap σ |})
  | run_session_panic evs w opt e w' :
      config_step profile region configFile (world σ) evs w (inl opt) →
      session_NewSessionWithOptions opt w = (inr e, w') →
      NewAwsClient_run profile region configFile σ
        (Panicked (PanicError e)
           {| world := w';
              trace := trace σ ++ evs ++ [EvNewSessionWithOptions opt (inr e)];
              heap := heap σ |})
  | run_probe_awserr evs w opt sess w' v e w'' :
      config_step profile region configFile (world σ) evs w (inl opt) →
      session_NewSessionWithOptions opt w = (inl sess, w') →
      Credentials_Get sess w' = ((v, Some e), w'') →
      assert_awserr (Some e) = Some e →
      NewAwsClient_run profile region configFile σ
        (Returned (None, Some (WithStack e "Could not create AWS session"))
           {| world := w'';
              trace := trace σ ++ evs ++ [EvNewSessionWithOptions opt (inl sess);
                                          EvCredentialsGet sess (v, Some e)];
              heap := heap σ |})
  | run_facade evs w opt sess w' v err w'' :
      config_step profile region configFile (world σ) evs w (inl opt) →
      session_NewSessionWithOptions opt w = (inl sess, w') →
      Credentials_Get sess w' = ((v, err), w'') →
      assert_awserr err = None →
      NewAwsClient_run profile region configFile σ
        (Returned (Some (fresh (dom (heap σ))), None)
           {| world := w'';
              trace := trace σ ++ evs ++ [EvNewSessionWithOptions opt (inl sess);
                                          EvCredentialsGet sess (v, err)];
              heap := <[fresh (dom (heap σ)) := facade_of sess]> (heap σ) |}).

(** The configuration [NewAwsClientWithInput] builds from its input. *)
Definition static_config (input : AwsClientInput) : Config :=
  {| cfg_Credentials :=
       Some (credentials_NewStaticCredentials
               (AccessKeyID input) (SecretAccessKey input) (SessionToken input));
     cfg_Region := aws_String (Region input) |}.

Inductive NewAwsClientWithInput_run (σ : State)
  : option AwsClientInput → outcome (option loc * option error) → Prop :=
  | run_nil_input :
      NewAwsClientWithInput_run σ None (Panicked NilDereference σ)
  | run_session_error input e w :
      session_NewSession (static_config input) (world σ) = (inr e, w) →
      NewAwsClientWithInput_run σ (Some input)
        (Returned (None, Some e)
           {| world := w;
              trace := trace σ ++ [EvNewSession (static_config input) (inr e)];
              heap := heap σ |})
  | run_static_facade input s w :
      session_NewSession (static_config input) (world σ) = (inl s, w) →
      NewAwsClientWithInput_run σ (Some input)
        (Returned (Some (fresh (dom (heap σ))), None)
           {| world := w;
              trace := trace σ ++ [EvNewSession (static_config input) (inl s)];
              heap := <[fresh (dom (heap σ)) := facade_of s]> (heap σ) |}).

(** *** Failures of construction *)

(** The error of a construction step that failed, read off its log entry. *)
Definition construction_failure (ev : Event) : option error :=
  match ev with
  | EvAbs _ (_, Some e) => Some e
  | EvNewSessionWithOptions _ (inr e) => Some e
  | EvNewSession _ (inr e) => Some e
  | EvCredentialsGet _ (_, Some e) => Some e
  | _ => None
  end.

(** The specification's account of a construction failure: whichever step
    fails, the caller gets a nil client and the error of that step under a
    contextual message. *)
Definition failures_wrapped_and_returned (σ : State)
    (o : outcome (option loc * option error)) : Prop :=
  ∀ ev e, ev ∈ calls σ o → construction_failure ev = Some e →
    ∃ message σ', o = Returned (None, Some (WithStack e message)) σ'.

(** The specification's account of a failed credential probe. *)
Definition probe_failures_reported (σ : State)
    (o : outcome (option loc * option error)) : Prop :=
  ∀ sess e, (sess, Some e) ∈ credential_probes (calls σ o) →
    ∃ message σ', o = Returned (None, Some (WithStack e message)) σ'.

(** What [NewAwsClient] does with the error [e] of a failed step: the error
    of [filepath.Abs] goes back as it is, the error of the session is the
    value of a panic, the error of the probe goes back wrapped. *)
Inductive failure_report (e : error)
  : Event → outcome (option loc * option error) → Prop :=
  | report_abs path abs σ' :
      failure_report e (EvAbs path (abs, Some e)) (Returned (None, Some e) σ')
  | report_session opt σ' :
      failure_report e (EvNewSessionWithOptions opt (inr e))
        (Panicked (PanicError e) σ')
  | report_probe sess v σ' :
      failure_report e (EvCredentialsGet sess (v, Some e))
        (Returned (None, Some (WithStack e "Could not create AWS session")) σ').

(** The forwarding methods of [*AwsClient]: each reads one field of the
    receiver and calls the method of the same name on it. *)
Definition AssumeRole (c : option loc) (input : option (Input OpAssumeRole))
  : Go (option (Output OpAssumeRole) * option error) :=
  this ← deref c;
  sub ← nonnil (stsClient this);
  extern (EvCall OpAssumeRole input) (sts_AssumeRole sub input).

Definition GetCallerIdentity (c : option loc) (input : option (Input OpGetCallerIdentity))
  : Go (option (Output OpGetCallerIdentity) * option error) :=
  this ← deref c;
  sub ← nonnil (stsClient this);
  extern (EvCall OpGetCallerIdentity input) (sts_GetCallerIdentity sub input).

Definition GetFederationToken (c : option loc) (input : option (Input OpGetFederationToken))
  : Go (option (Output OpGetFederationToken) * option error) :=
  this ← deref c;
  sub ← nonnil (stsClient this);
  extern (EvCall OpGetFederationToken input) (sts_GetFederationToken sub input).

Definition ListBuckets (c : option loc) (input : option (Input OpListBuckets))
  : Go (option (Output OpListBuckets) * option error) :=
  this ← deref c;
  sub ← nonnil (s3Client this);
  extern (EvCall OpListBuckets input) (s3_ListBuckets sub input).

Definition DeleteBucket (c : option loc) (input : option (Input OpDeleteBucket))
  : Go (option (Output OpDeleteBucket) * option error) :=
  this ← deref c;
  sub ← nonnil (s3Client this);
  extern (EvCall OpDeleteBucket input) (s3_DeleteBucket sub input).

Definition ListObjects (c : option loc) (input : option (Input OpListObjects))
  : Go (option (Output OpListObjects) * option error) :=
  this ← deref c;
  sub ← nonnil (s3Client this);
  extern (EvCall OpListObjects input) (s3_ListObjects sub input).

Definition DeleteObjects (c : option loc) (input : option (Input OpDeleteObjects))
  : Go (option (Output OpDeleteObjects) * option error) :=
  this ← deref c;
  sub ← nonnil (s3Client this);
  extern (EvCall OpDeleteObjects input) (s3_DeleteObjects sub input).

Definition CreateAccessKey (c : option loc) (input : option (Input OpCreateAccessKey))
  : Go (option (Output OpCreateAccessKey) * option error) :=
  this ← deref c;
  sub ← nonnil (iamClient this);
  extern (EvCall OpCreateAccessKey input) (iam_CreateAccessKey sub input).

Definition DeleteAccessKey (c : option loc) (input : option (Input OpDeleteAccessKey))
  : Go (option (Output OpDeleteAccessKey) * option error) :=
  this ← deref c;
  sub ← nonnil (iamClient this);
  extern (EvCall OpDeleteAccessKey input) (iam_DeleteAccessKey sub input).

Definition ListAccessKeys (c : option loc) (input : option (Input OpListAccessKeys))
  : Go (option (Output OpListAccessKeys) * option error) :=
  this ← deref c;
  sub ← nonnil (iamClient this);
  extern (EvCall OpListAccessKeys input) (iam_ListAccessKeys sub input).

Definition GetUser (c : option loc) (input : option (Input OpGetUser))
  : Go (option (Output OpGetUser) * option error) :=
  this ← deref c;
  sub ← nonnil (iamClient this);
  extern (EvCall OpGetUser input) (iam_GetUser sub input).

Definition CreateUser (c : option loc) (input : option (Input OpCreateUser))
  : Go (option (Output OpCreateUser) * option error) :=
  this ← deref c;
  sub ← nonnil (iamClient this);
  extern (EvCall OpCreateUser input) (iam_CreateUser sub input).

Definition ListUsers (c : option loc) (input : option (Input OpListUsers))
  : Go (option (Output OpListUsers) * option error) :=
  this ← deref c;
  sub ← nonnil (iamClient this);
  extern (EvCall OpListUsers input) (iam_ListUsers sub input).

Definition AttachUserPolicy (c : option loc) (input : option (Input OpAttachUserPolicy))
  : Go (option (Output OpAttachUserPolicy) * option error) :=
  this ← deref c;
  sub ← nonnil (iamClient this);
  extern (EvCall OpAttachUserPolicy input) (iam_AttachUserPolicy sub input).

(** A call of a method of the interface [Client] on a value that holds a
    [*AwsClient]. *)
Definition call (op : Op)
  : option loc → option (Input op) → Go (option (Output op) * option error) :=
  match op with
  | OpAssumeRole => AssumeRole
  | OpGetCallerIdentity => GetCallerIdentity
  | OpGetFederationToken => GetFederationToken
  | OpListBuckets => ListBuckets
  | OpDeleteBucket => DeleteBucket
  | OpListObjects => ListObjects
  | OpDeleteObjects => DeleteObjects
  | OpCreateAccessKey => CreateAccessKey
  | OpDeleteAccessKey => DeleteAccessKey
  | OpListAccessKeys => ListAccessKeys
  | OpGetUser => GetUser
  | OpCreateUser => CreateUser
  | OpListUsers => ListUsers
  | OpAttachUserPolicy => AttachUserPolicy
  end.

(** The method of a sub-client that corresponds to a method of the facade:
    the one of the same name, on the field of its service.  [None] when that
    field is nil. *)
Definition sub_method (op : Op) (this : AwsClient) : option (SubCall op) :=
  match op with
  | OpAssumeRole => sts_AssumeRole <$> stsClient this
  | OpGetCallerIdentity => sts_GetCallerIdentity <$> stsClient this
  | OpGetFederationToken => sts_GetFederationToken <$> stsClient this
  | OpListBuckets => s3_ListBuckets <$> s3Client this
  | OpDeleteBucket => s3_DeleteBucket <$> s3Client this
  | OpListObjects => s3_ListObjects <$> s3Client this
  | OpDeleteObjects => s3_DeleteObjects <$> s3Client this
  | OpCreateAccessKey => iam_CreateAccessKey <$> iamClient this
  | OpDeleteAccessKey => iam_DeleteAccessKey <$> iamClient this
  | OpListAccessKeys => iam_ListAccessKeys <$> iamClient this
  | OpGetUser => iam_GetUser <$> iamClient this
  | OpCreateUser => iam_CreateUser <$> iamClient this
  | OpListUsers => iam_ListUsers <$> iamClient this
  | OpAttachUserPolicy => iam_AttachUserPolicy <$> iamClient this
  end.

(** What the specification says of every method: read the receiver, take the field of the service, call
    the method of the same name once.  This is the description the
    fourteen bodies are compared with. *)
Definition forward_spec (op : Op) (c : option loc) (input : option (Input op))
  : Go (option (Output op) * option error) :=
  this ← deref c;
  f ← nonnil (sub_method op this);
  extern (EvCall op input) (f input).

(** Whether the field of a service is set in a facade. *)
Definition has_subclient (svc : Service) (this : AwsClient) : bool :=
  match svc with
  | STS => bool_decide (is_Some (stsClient this))
  | S3 => bool_decide (is_Some (s3Client this))
  | IAM => bool_decide (is_Some (iamClient this))
  end.

(** The invariant of the data model: no sub-client of a facade is nil. *)
Definition subclients_nonnil (this : AwsClient) : Prop :=
  is_Some (iamClient this) ∧ is_Some (stsClient this) ∧ is_Some (s3Client this).

Global Instance subclients_nonnil_dec this : Decision (subclients_nonnil this).
Proof. unfold subclients_nonnil. apply _. Defined.

(** The pointer [l] leads to a facade that satisfies the invariant. *)
Definition facade_ok (σ : State) (l : loc) : Prop :=
  ∃ this, heap σ !! l = Some this ∧ subclients_nonnil this.

(** *** Further readings of a log and of a result *)



(** Of the two results of a constructor, exactly one is non-nil. *)
Definition exactly_one (r : option loc * option error) : bool :=
  xorb (bool_decide (is_Some r.1)) (bool_decide (is_Some r.2)).

Definition returns_exactly_one (o : outcome (option loc * option error)) : Prop :=
  match o with
  | Returned r _ => exactly_one r = true
  | Panicked _ _ => True
  end.

(** The heap after a run of a constructor from [σ]: with a client returned,
    its address was unused, holds a facade now, and nothing else changed;
    without one, the heap is as it was. *)
Definition allocates_at_most_one (σ : State)
    (o : outcome (option loc * option error)) : Prop :=
  match o with
  | Returned (Some l, _) σ' =>
      heap σ !! l = None ∧ is_Some (heap σ' !! l) ∧ delete l (heap σ') = heap σ
  | _ => heap (final o) = heap σ
  end.

(** [c] and [σ'] are what one of the two constructors returned from [σ],
    with a nil error. *)
Definition constructed (σ : State) (c : option loc) (σ' : State) : Prop :=
  (∃ profile region configFile,
     NewAwsClient profile region configFile σ = Returned (c, None) σ')
  ∨ (∃ input, NewAwsClientWithInput input σ = Returned (c, None) σ').

End Model.

Global Arguments AwsClient {T}.
Global Arguments State {T}.

(** ** A test double of the SDK

    The outside world counts the requests served, a session is the options
    it was built from, and requests and responses are strings.  The double
    is configured by the error, if any, that each of the three construction
    steps returns. *)
Module Mock.

Global Instance types : SDKTypes :=
  {| W := nat; Session := Options; Input := λ _, string; Output := λ _, string |}.

(** A sub-client method that answers every request with a fixed pair. *)
Definition fixed {op : Op} (resp : option string) (err : option error)
  : SubCall (T := types) op :=
  λ _ w, ((resp, err), S w).

Definition sts : STSAPI (T := types) :=
  {| sts_AssumeRole := fixed (Some "assumed-role-credentials") None;
     sts_GetCallerIdentity := fixed (Some "arn:aws:iam::123456789012:user/osd") None;
     sts_GetFederationToken := fixed None (Some (AwsErr "AccessDenied" "not authorized")) |}.

Definition s3 : S3API (T := types) :=
  {| s3_ListBuckets := fixed (Some "bucket-a,bucket-b") None;
     s3_DeleteBucket := fixed None (Some (AwsErr "NoSuchBucket" "no such bucket"));
     s3_ListObjects := fixed (Some "object-1") None;
     s3_DeleteObjects := fixed (Some "deleted") None |}.

Definition iam : IAMAPI (T := types) :=
  {| iam_CreateAccessKey := fixed (Some "AKIAEXAMPLE") None;
     iam_DeleteAccessKey := fixed (Some "") None;
     iam_ListAccessKeys := fixed (Some "AKIAEXAMPLE") None;
     iam_GetUser := fixed None (Some (AwsErr "NoSuchEntity" "no such user"));
     iam_CreateUser := fixed (Some "osd-user") None;
     iam_ListUsers := fixed (Some "osd-user") None;
     iam_AttachUserPolicy := fixed None (Some (PlainErr "connection reset")) |}.

Definition value : Value :=
  {| v_AccessKeyID := "AKIAEXAMPLE"; v_SecretAccessKey := "secret";
     v_SessionToken := ""; ProviderName := "SharedConfigCredentials" |}.

Definition no_value : Value :=
  {| v_AccessKeyID := ""; v_SecretAccessKey := ""; v_SessionToken := "";
     ProviderName := "" |}.

Definition sdk (abs_err sess_err probe_err : option error) : SDK (T := types) :=
  {| filepath_Abs := λ path w,
       match abs_err with
       | Some e => (("", Some e), w)
       | None => ((if String.prefix "/" path then path else String.append "/home/osd/" path, None), w)
       end;
     session_NewSessionWithOptions := λ opt w,
       (match sess_err with Some e => inr e | None => inl opt end, w);
     session_NewSession := λ cfg w,
       (match sess_err with
        | Some e => inr e
        | None => inl {| opt_Config := cfg; Profile := ""; SharedConfigFiles := [] |}
        end, w);
     Credentials_Get := λ _ w,
       (match probe_err with
        | Some e => (no_value, Some e)
        | None => (value, None)
        end, w);
     iam_New := λ _, iam;
     sts_New := λ _, sts;
     s3_New := λ _, s3 |}.

(** A machine that has made no call and holds no facade. *)
Definition σ0 : State (T := types) := {| world := 0; trace := []; heap := ∅ |}.

(** A facade as the constructors build it, and a machine that holds it. *)
Definition facade : AwsClient (T := types) :=
  {| iamClient := Some iam; stsClient := Some sts; s3Client := Some s3 |}.

Definition σ1 : State (T := types) :=
  {| world := 0; trace := []; heap := {[ 1%positive := facade ]} |}.

Definition getwd_error : error := PlainErr "getwd: no such file or directory".
Definition no_providers : error :=
  AwsErr "NoCredentialProviders" "no valid providers in chain".
Definition load_error : error :=
  AwsErr "SharedConfigLoadError" "failed to load config file".
Definition stdin_error : error := PlainErr "unexpected newline".

Definition input : AwsClientInput :=
  {| AccessKeyID := "AKIAEXAMPLE"; SecretAccessKey := "secret";
     SessionToken := "token"; Region := "us-east-1" |}.

(** A facade with the token service only, as a test inside the package can
    build it, and a machine that holds it. *)
Definition sts_only : AwsClient (T := types) :=
  {| iamClient := None; stsClient := Some sts; s3Client := None |}.

Definition σ2 : State (T := types) :=
  {| world := 0; trace := []; heap := {[ 1%positive := sts_only ]} |}.

End Mock.

(** ** Properties *)

Section Properties.
Context {T : SDKTypes} {sdk : SDK}.

(** *** The log *)

Lemma calls_app {A} (σ : State) (o : outcome A) (evs : list Event) :
  trace (final o) = trace σ ++ evs → calls σ o = evs.
Proof. unfold calls. intros ->. apply drop_app_length. Qed.

Lemma calls_nil {A} (σ : State) (o : outcome A) :
  trace (final o) = trace σ → calls σ o = [].
Proof. intros H. apply calls_app. by rewrite app_nil_r. Qed.

(** *** The forwarding methods *)

(** Unfolds the monad down to matches on the state. *)
Ltac go_unfold :=
  repeat progress
    (unfold mbind, mret, Go_bind, Go_ret, session_Must, extern, alloc, deref,
       nonnil, panic in *; simpl in *).

Lemma call_forward_spec op c input σ : call op c input σ = forward_spec op c input σ.
Proof.
  unfold forward_spec.
  destruct op; simpl;
    unfold AssumeRole, GetCallerIdentity, GetFederationToken, ListBuckets,
      DeleteBucket, ListObjects, DeleteObjects, CreateAccessKey,
      DeleteAccessKey, ListAccessKeys, GetUser, CreateUser, ListUsers,
      AttachUserPolicy;
    go_unfold;
    destruct c as [l|]; try reflexivity;
    destruct (heap σ !! l) as [this|]; try reflexivity;
    destruct this as [[i|] [s|] [b|]]; reflexivity.
Qed.

Lemma forward_spec_heap op c input σ :
  heap (final (forward_spec op c input σ)) = heap σ.
Proof.
  unfold forward_spec. go_unfold.
  destruct c as [l|]; [|reflexivity].
  destruct (heap σ !! l) as [this|]; [|reflexivity].
  destruct (sub_method op this) as [f|]; [|reflexivity].
  simpl. by destruct (f input (world σ)) as [[resp err] w].
Qed.

(** *** The constructors *)

Lemma NewAwsClient_run_sound profile region configFile σ :
  NewAwsClient_run profile region configFile σ
    (NewAwsClient profile region configFile σ).
Proof.
  unfold NewAwsClient. go_unfold.
  destruct (decide (configFile ≠ "")) as [Hne|Heq].
  - destruct (filepath_Abs configFile (world σ)) as [[abs [e|]] w] eqn:Habs; simpl.
    + eapply (run_abs_error _ _ _ _ [_]). by eapply config_abs_error.
    + match goal with
      | |- context [session_NewSessionWithOptions ?o ?w0] =>
          destruct (session_NewSessionWithOptions o w0) as [[sess|e] w'] eqn:Hsess
      end; simpl.
      * destruct (Credentials_Get sess w') as [[v err] w''] eqn:Hget; simpl.
        destruct (assert_awserr err) as [aerr|] eqn:Hassert; simpl.
        -- destruct err as [[code msg| |]|]; try discriminate.
           rewrite <- !(assoc_L (++)).
           destruct (String.eqb _ _); simpl;
             (eapply (run_probe_awserr _ _ _ _ [_]); [by eapply config_abs|done..]).
        -- rewrite <- !(assoc_L (++)).
           eapply (run_facade _ _ _ _ [_]); [by eapply config_abs|done..].
      * rewrite <- !(assoc_L (++)).
        eapply (run_session_panic _ _ _ _ [_]); [by eapply config_abs|done].
  - apply dec_stable in Heq.
    match goal with
    | |- context [session_NewSessionWithOptions ?o ?w0] =>
        destruct (session_NewSessionWithOptions o w0) as [[sess|e] w'] eqn:Hsess
    end; simpl.
    + destruct (Credentials_Get sess w') as [[v err] w''] eqn:Hget; simpl.
      destruct (assert_awserr err) as [aerr|] eqn:Hassert; simpl.
      * destruct err as [[code msg| |]|]; try discriminate.
        rewrite <- !(assoc_L (++)).
        destruct (String.eqb _ _); simpl;
          (eapply (run_probe_awserr _ _ _ _ []); [by eapply config_empty|done..]).
      * rewrite <- !(assoc_L (++)).
        eapply (run_facade _ _ _ _ []); [by eapply config_empty|done..].
    + eapply (run_session_panic _ _ _ _ []); [by eapply config_empty|done].
Qed.

Lemma NewAwsClientWithInput_run_sound input σ :
  NewAwsClientWithInput_run σ input (NewAwsClientWithInput input σ).
Proof.
  unfold NewAwsClientWithInput. go_unfold.
  destruct input as [input|]; simpl; [|constructor].
  fold (static_config input).
  destruct (session_NewSession (static_config input) (world σ)) as [[s|e] w] eqn:Hs;
    simpl; by constructor.
Qed.

(** The calls of a run of [NewAwsClient], by the way it ended. *)
Ltac run_calls :=
  match goal with
  | |- context [calls ?σ ?o] =>
      rewrite (calls_app σ o _ eq_refl) in *
  | H : context [calls ?σ ?o] |- _ =>
      rewrite (calls_app σ o _ eq_refl) in H
  end.

Ltac invert_config :=
  match goal with
  | H : config_step _ _ _ _ _ _ _ |- _ => inversion H; subst; clear H
  end.

Lemma facade_ok_heap (σ σ' : State) l :
  heap σ' = heap σ → facade_ok σ l → facade_ok σ' l.
Proof. unfold facade_ok. by intros ->. Qed.

Lemma facade_ok_alloc (σ σ' : State) l obj :
  heap σ' = <[fresh (dom (heap σ)) := obj]> (heap σ) →
  facade_ok σ l → facade_ok σ' l.
Proof.
  unfold facade_ok. intros -> (this & Hl & Hok).
  exists this. split; [|done].
  rewrite lookup_insert_ne; [done|].
  intros Heq. apply (is_fresh (dom (heap σ))).
  rewrite Heq. apply elem_of_dom. by exists this.
Qed.

Lemma facade_of_nonnil sess : subclients_nonnil (facade_of sess).
Proof. unfold subclients_nonnil, facade_of; simpl. eauto. Qed.

Lemma facade_ok_new (σ σ' : State) sess :
  heap σ' = <[fresh (dom (heap σ)) := facade_of sess]> (heap σ) →
  facade_ok σ' (fresh (dom (heap σ))).
Proof.
  intros Hh. exists (facade_of sess). rewrite Hh, lookup_insert_eq.
  split; [done|apply facade_of_nonnil].
Qed.

(** The sub-client method of an operation is the one of its service. *)
Lemma sub_method_service op this :
  is_Some (sub_method op this) ↔ has_subclient (service_of op) this = true.
Proof.
  destruct this as [i s b]; destruct op; simpl;
    rewrite bool_decide_eq_true, fmap_is_Some; reflexivity.
Qed.

Lemma subclients_nonnil_service this svc :
  subclients_nonnil this → has_subclient svc this = true.
Proof.
  intros (Hi & Hs & Hb). destruct svc; simpl; by apply bool_decide_eq_true.
Qed.

(** On a facade that satisfies the invariant no method panics: the call
    returns what one call of the sub-client returns. *)
Lemma call_returns op σ l input :
  facade_ok σ l →
  ∃ this f, heap σ !! l = Some this ∧ sub_method op this = Some f
    ∧ call op (Some l) input σ =
        Returned (f input (world σ)).1
          {| world := (f input (world σ)).2;
             trace := trace σ ++ [EvCall op input (f input (world σ)).1];
             heap := heap σ |}.
Proof.
  intros (this & Hl & Hok).
  destruct (proj2 (sub_method_service op this)) as [f Hf];
    [by apply subclients_nonnil_service|].
  exists this, f. split; [done|]. split; [done|].
  rewrite call_forward_spec. unfold forward_spec. go_unfold.
  rewrite Hl, Hf; simpl. by destruct (f input (world σ)) as [r w].
Qed.

Lemma call_heap op c input σ : heap (final (call op c input σ)) = heap σ.
Proof. rewrite call_forward_spec. apply forward_spec_heap. Qed.

(** *** The claims about the forwarding methods *)

(** C4.  Every forwarding method is a pure pass-through.  When the receiver
    points to a facade whose sub-client for the method is present, and that
    sub-client answers the input with the pair [(resp, err)], the method
    returns exactly [(resp, err)]; the sub-client was called once, with the
    input as it was given (a nil input included: nothing is validated), and
    the facade is as before. *)
Theorem forwarding_is_pass_through (op : Op) (σ : State) (l : loc)
    (this : AwsClient) (f : SubCall op) (input : option (Input op))
    (resp : option (Output op)) (err : option error) (w' : W) :
  heap σ !! l = Some this →
  sub_method op this = Some f →
  f input (world σ) = ((resp, err), w') →
  call op (Some l) input σ =
    Returned (resp, err)
      {| world := w';
         trace := trace σ ++ [EvCall op input (resp, err)];
         heap := heap σ |}.
Proof.
  intros Hl Hf Hres. rewrite call_forward_spec.
  unfold forward_spec. go_unfold.
  by rewrite Hl, Hf; simpl; rewrite Hres.
Qed.

(** C10.  No forwarding method writes to the facade: whatever the method,
    the receiver and the input, and whether the call returns or panics, the
    heap of facade objects after the call is the heap before it, so every
    field of every facade is unchanged. *)
Theorem forwarding_leaves_facade_unchanged (op : Op) (c : option loc)
    (input : option (Input op)) (σ : State) :
  heap (final (call op c input σ)) = heap σ
  ∧ ∀ l, heap (final (call op c input σ)) !! l = heap σ !! l.
Proof.
  pose proof (call_heap op c input σ) as Hh.
  split; [done|]. intros l. by rewrite Hh.
Qed.

(** *** The claims about [NewAwsClient] *)

(** C2.  When the credential probe of [NewAwsClient] returns a non-nil error
    whose dynamic type does not implement [awserr.Error], the error is
    dropped: the constructor returns a non-nil client, whose sub-clients are
    all set, and a nil error. *)
Theorem NewAwsClient_swallows_non_awserr_error
    (profile region configFile : string) (σ : State)
    (sess : Session) (v : Value) (e : error) :
  let o := NewAwsClient profile region configFile σ in
  EvCredentialsGet sess (v, Some e) ∈ calls σ o →
  assert_awserr (Some e) = None →
  ∃ l σ', o = Returned (Some l, None) σ' ∧ facade_ok σ' l.
Proof.
  intros o Hin Hno. subst o.
  pose proof (NewAwsClient_run_sound profile region configFile σ) as Hrun.
  revert Hin. destruct Hrun as [evs w e' Hc|evs w opt e' w' Hc Hs
    |evs w opt sess' w' v' e' w'' Hc Hs Hg Ha|evs w opt sess' w' v' err w'' Hc Hs Hg Ha];
    intros Hin; run_calls; invert_config;
    rewrite ?elem_of_app, ?elem_of_cons, ?elem_of_nil in Hin;
    destruct_or?; simplify_eq; try done.
  all: eexists _, _; split; [reflexivity|by eapply facade_ok_new].
Qed.

(** C3, as the code has it.  A construction step of [NewAwsClient] that
    fails is the only failure of the run and its last call, and no facade is
    built.  The error of [filepath.Abs] is returned as it is, with a nil
    client; the error of the session is the value of the panic that
    [session.Must] raises; the error of the credential probe, when it
    implements [awserr.Error], is returned under the message
    ["Could not create AWS session"], with a nil client. *)
Theorem NewAwsClient_failure_reports
    (profile region configFile : string) (σ : State) (ev : Event) (e : error) :
  let o := NewAwsClient profile region configFile σ in
  ev ∈ calls σ o →
  construction_failure ev = Some e →
  (∀ sess res, ev = EvCredentialsGet sess res → assert_awserr (Some e) = Some e) →
  failure_report e ev o
  ∧ omap construction_failure (calls σ o) = [e]
  ∧ last (calls σ o) = Some ev
  ∧ heap (final o) = heap σ.
Proof.
  intros o Hin Hfail Hprobe. subst o.
  pose proof (NewAwsClient_run_sound profile region configFile σ) as Hrun.
  revert Hin. destruct Hrun as [evs w e' Hc|evs w opt e' w' Hc Hs
    |evs w opt sess' w' v' e' w'' Hc Hs Hg Ha|evs w opt sess' w' v' err w'' Hc Hs Hg Ha];
    intros Hin; run_calls; invert_config;
    rewrite ?elem_of_app, ?elem_of_cons, ?elem_of_nil in Hin;
    destruct_or?; subst; simpl in Hfail; simplify_eq;
    try (by repeat split; constructor).
  all: destruct err as [e0|]; simplify_eq.
  all: specialize (Hprobe _ _ eq_refl); simplify_eq.
Qed.

(** C6.  For a non-empty [configFile], the first call of [NewAwsClient] is
    [filepath.Abs configFile]; when it succeeds, exactly one session is
    created after it, from options whose shared config files are the one
    path [filepath.Abs] returned; when it fails, no session is created. *)
Theorem NewAwsClient_config_file_made_absolute
    (profile region configFile : string) (σ : State) :
  configFile ≠ "" →
  let o := NewAwsClient profile region configFile σ in
  let '((abs, err), _) := filepath_Abs configFile (world σ) in
  ∃ rest, calls σ o = EvAbs configFile (abs, err) :: rest
    ∧ session_options rest =
        match err with
        | None => [with_config_file (initial_options profile region) abs]
        | Some _ => []
        end
    ∧ Forall (λ opt, SharedConfigFiles opt = [abs]) (session_options rest).
Proof.
  intros Hne o. subst o.
  pose proof (NewAwsClient_run_sound profile region configFile σ) as Hrun.
  destruct Hrun as [evs w e' Hc|evs w opt e' w' Hc Hs
    |evs w opt sess' w' v' e' w'' Hc Hs Hg Ha|evs w opt sess' w' v' err w'' Hc Hs Hg Ha];
    run_calls; invert_config; try done;
    match goal with H : filepath_Abs _ _ = _ |- _ => rewrite H end;
    eexists; (split; [reflexivity|]); simpl;
    (split; [reflexivity|]); repeat constructor.
Qed.

(** C7.  For the empty [configFile], [NewAwsClient] does not call
    [filepath.Abs], and the one session it creates is created from the
    initial options, whose shared-config-files field is the nil slice. *)
Theorem NewAwsClient_empty_config_file (profile region : string) (σ : State) :
  let o := NewAwsClient profile region "" σ in
  resolved_paths (calls σ o) = []
  ∧ session_options (calls σ o) = [initial_options profile region]
  ∧ Forall (λ opt, SharedConfigFiles opt = []) (session_options (calls σ o)).
Proof.
  intros o. subst o.
  pose proof (NewAwsClient_run_sound profile region "" σ) as Hrun.
  destruct Hrun as [evs w e' Hc|evs w opt e' w' Hc Hs
    |evs w opt sess' w' v' e' w'' Hc Hs Hg Ha|evs w opt sess' w' v' err w'' Hc Hs Hg Ha];
    run_calls; invert_config; try done;
    simpl; repeat split; repeat constructor.
Qed.

(** *** The claims about [NewAwsClientWithInput] *)

(** C5.  [NewAwsClientWithInput] never probes credentials.  On a non-nil
    input its only call is one [session.NewSession], on the configuration
    made of the static credentials and the region of the input; it returns
    an error exactly when that call does, and then the client is nil and the
    error is the one of the session; otherwise it returns a client and a nil
    error.  (On a nil input it panics before any call.) *)
Theorem NewAwsClientWithInput_no_probe (input : option AwsClientInput) (σ : State) :
  let o := NewAwsClientWithInput input σ in
  credential_probes (calls σ o) = []
  ∧ match input with
    | None => o = Panicked NilDereference σ
    | Some input =>
        let '(r, w) := session_NewSession (static_config input) (world σ) in
        calls σ o = [EvNewSession (static_config input) r]
        ∧ match r with
          | inr e =>
              o = Returned (None, Some e)
                    {| world := w;
                       trace := trace σ ++ [EvNewSession (static_config input) r];
                       heap := heap σ |}
          | inl s => ∃ l σ', o = Returned (Some l, None) σ'
          end
    end.
Proof.
  intros o. subst o.
  destruct (NewAwsClientWithInput_run_sound input σ) as [|input e w Hs|input s w Hs].
  - split; [|reflexivity]. by rewrite calls_nil.
  - run_calls. rewrite Hs. repeat split.
  - run_calls. rewrite Hs. repeat split. by eexists _, _.
Qed.

(** C8.  When session construction succeeds on the static credentials and
    the region of the input, [NewAwsClientWithInput] returns a non-nil
    client, the facade over the three service clients of that session, and a
    nil error. *)
Theorem NewAwsClientWithInput_succeeds (input : AwsClientInput) (σ : State)
    (s : Session) (w : W) :
  session_NewSession (static_config input) (world σ) = (inl s, w) →
  ∃ l σ', NewAwsClientWithInput (Some input) σ = Returned (Some l, None) σ'
    ∧ heap σ' !! l = Some (facade_of s).
Proof.
  intros Hs.
  pose proof (NewAwsClientWithInput_run_sound (Some input) σ) as Hrun.
  inversion Hrun as [|input' e w' Hs' Hin Ho|input' s' w' Hs' Hin Ho];
    rewrite Hs in Hs'; [discriminate|]. injection Hs' as <- <-.
  eexists _, _. split; [reflexivity|]. simpl. apply lookup_insert_eq.
Qed.

(** *** The invariant *)

(** C9.  A constructor that returns a nil error returns a pointer to a
    facade whose three sub-clients are non-nil; and a facade with that
    property keeps it through every later operation of the package: a call
    of any forwarding method on any receiver, and a run of either
    constructor. *)
Theorem subclients_nonnil_after_construction :
  (∀ profile region configFile σ c σ',
     NewAwsClient profile region configFile σ = Returned (c, None) σ' →
     ∃ l, c = Some l ∧ facade_ok σ' l)
  ∧ (∀ input σ c σ',
     NewAwsClientWithInput input σ = Returned (c, None) σ' →
     ∃ l, c = Some l ∧ facade_ok σ' l)
  ∧ (∀ σ l, facade_ok σ l →
     (∀ op c input, facade_ok (final (call op c input σ)) l)
     ∧ (∀ profile region configFile,
          facade_ok (final (NewAwsClient profile region configFile σ)) l)
     ∧ (∀ input, facade_ok (final (NewAwsClientWithInput input σ)) l)).
Proof.
  split; [|split].
  - intros profile region configFile σ c σ' Hret.
    pose proof (NewAwsClient_run_sound profile region configFile σ) as Hrun.
    rewrite Hret in Hrun. inversion Hrun; subst.
    eexists. split; [reflexivity|]. by eapply facade_ok_new.
  - intros input σ c σ' Hret.
    pose proof (NewAwsClientWithInput_run_sound input σ) as Hrun.
    rewrite Hret in Hrun. inversion Hrun; subst.
    eexists. split; [reflexivity|]. by eapply facade_ok_new.
  - intros σ l Hok. split; [|split].
    + intros op c input. eapply facade_ok_heap; [apply call_heap|done].
    + intros profile region configFile.
      destruct (NewAwsClient_run_sound profile region configFile σ); simpl;
        first [by eapply facade_ok_heap | by eapply facade_ok_alloc].
    + intros input.
      destruct (NewAwsClientWithInput_run_sound input σ); simpl;
        first [by eapply facade_ok_heap | by eapply facade_ok_alloc].
Qed.

(** *** Further properties of the constructors *)

Ltac destruct_run profile region configFile σ :=
  destruct (NewAwsClient_run_sound profile region configFile σ)
    as [evs w e' Hc|evs w opt e' w' Hc Hs
       |evs w opt sess' w' v' e' w'' Hc Hs Hg Ha
       |evs w opt sess' w' v' err w'' Hc Hs Hg Ha].



(** X3.  Whenever a constructor returns, exactly one of the client and the
    error is nil: an error never comes with a client, and a nil error
    never comes with a nil client. *)
Theorem constructors_return_client_xor_error :
  (∀ profile region configFile σ,
     returns_exactly_one (NewAwsClient profile region configFile σ))
  ∧ (∀ input σ, returns_exactly_one (NewAwsClientWithInput input σ)).
Proof.
  split.
  - intros profile region configFile σ.
    destruct_run profile region configFile σ; reflexivity.
  - intros input σ.
    destruct (NewAwsClientWithInput_run_sound input σ); reflexivity.
Qed.

(** X5.  A constructor that returns a client has put one new facade at an
    address that was unused, so the client aliases no facade that existed
    before, and has changed nothing else in the heap; a constructor that
    fails or panics leaves the heap as it was. *)
Theorem constructors_allocate_fresh :
  (∀ profile region configFile σ,
     allocates_at_most_one σ (NewAwsClient profile region configFile σ))
  ∧ (∀ input σ, allocates_at_most_one σ (NewAwsClientWithInput input σ)).
Proof.
  assert (Hfresh : ∀ σ : State, heap σ !! fresh (dom (heap σ)) = None).
  { intros σ. apply not_elem_of_dom_1, is_fresh. }
  split.
  - intros profile region configFile σ.
    destruct_run profile region configFile σ; simpl; try reflexivity.
    split; [apply Hfresh|]. split; [by rewrite lookup_insert_eq|].
    apply delete_insert_id, Hfresh.
  - intros input σ.
    destruct (NewAwsClientWithInput_run_sound input σ); simpl; try reflexivity.
    split; [apply Hfresh|]. split; [by rewrite lookup_insert_eq|].
    apply delete_insert_id, Hfresh.
Qed.

(** X8.  [NewAwsClient] panics only from [session.Must]: when it panics,
    the value of the panic is the error [session.NewSessionWithOptions]
    returned in its last call, no credentials were probed and no facade was
    built. *)
Theorem NewAwsClient_panics_only_on_session_error
    (profile region configFile : string) (σ σ' : State) (v : panic_value) :
  NewAwsClient profile region configFile σ = Panicked v σ' →
  ∃ opt e, v = PanicError e
    ∧ last (calls σ (NewAwsClient profile region configFile σ))
        = Some (EvNewSessionWithOptions opt (inr e))
    ∧ credential_probes (calls σ (NewAwsClient profile region configFile σ)) = []
    ∧ heap σ' = heap σ.
Proof.
  intros Hpanic. rewrite Hpanic.
  pose proof (NewAwsClient_run_sound profile region configFile σ) as Hrun.
  rewrite Hpanic in Hrun.
  inversion Hrun as [|evs w opt e' w' Hc Hs| |]; subst.
  exists opt, e'. split; [reflexivity|].
  run_calls. invert_config; repeat split.
Qed.

(** X4.  The success path of [NewAwsClient]: when the config-file step
    gives options, the session is created from them and its credentials
    resolve, the constructor returns a nil error and a pointer to a new
    facade whose three sub-clients are made from that one session. *)
Theorem NewAwsClient_succeeds
    (profile region configFile : string) (σ : State) (evs : list Event)
    (w w' w'' : W) (opt : Options) (sess : Session) (v : Value) :
  config_step profile region configFile (world σ) evs w (inl opt) →
  session_NewSessionWithOptions opt w = (inl sess, w') →
  Credentials_Get sess w' = ((v, None), w'') →
  ∃ l σ', NewAwsClient profile region configFile σ = Returned (Some l, None) σ'
    ∧ heap σ' !! l = Some (facade_of sess)
    ∧ world σ' = w''
    ∧ calls σ (NewAwsClient profile region configFile σ)
        = evs ++ [EvNewSessionWithOptions opt (inl sess);
                  EvCredentialsGet sess (v, None)].
Proof.
  intros Hc Hs Hg.
  assert (Hrun : NewAwsClient profile region configFile σ =
            Returned (Some (fresh (dom (heap σ))), None)
              {| world := w'';
                 trace := trace σ ++ evs ++ [EvNewSessionWithOptions opt (inl sess);
                                             EvCredentialsGet sess (v, None)];
                 heap := <[fresh (dom (heap σ)) := facade_of sess]> (heap σ) |}).
  { unfold NewAwsClient. go_unfold.
    inversion Hc as [Hempty|abs w0 Hne Habs|]; subst.
    - unfold initial_options in Hs. simpl. rewrite Hs; simpl. rewrite Hg; simpl.
      by rewrite <- !(assoc_L (++)).
    - destruct (decide (configFile ≠ "")) as [_|Hno]; [|done].
      rewrite Habs; simpl.
      unfold with_config_file, initial_options in Hs; simpl in Hs.
      rewrite Hs; simpl. rewrite Hg; simpl.
      by rewrite <- !(assoc_L (++)). }
  rewrite Hrun. eexists _, _. split; [reflexivity|]. simpl.
  split; [apply lookup_insert_eq|]. split; [reflexivity|].
  by apply calls_app.
Qed.

(** *** Further properties of the forwarding methods *)

(** X6.  A method needs the sub-client of its own service and no other.  On
    a nil receiver, and on a facade whose field for the service of the
    method is nil, the call panics with a nil dereference before anything is
    requested: the state is as it was.  On a facade that has that field, the
    call returns, whatever the other two fields are. *)
Theorem call_panics_iff_subclient_missing (op : Op) (σ : State) (l : loc)
    (this : AwsClient) (input : option (Input op)) :
  heap σ !! l = Some this →
  call op None input σ = Panicked NilDereference σ
  ∧ if has_subclient (service_of op) this
    then ∃ r σ', call op (Some l) input σ = Returned r σ'
                 ∧ calls σ (call op (Some l) input σ) = [EvCall op input r]
    else call op (Some l) input σ = Panicked NilDereference σ.
Proof.
  intros Hl. split.
  - rewrite call_forward_spec. reflexivity.
  - destruct (has_subclient (service_of op) this) eqn:Hhas.
    + apply sub_method_service in Hhas as [f Hf].
      rewrite call_forward_spec. unfold forward_spec. go_unfold.
      rewrite Hl, Hf; simpl.
      destruct (f input (world σ)) as [r w'].
      eexists _, _. split; [reflexivity|]. by apply calls_app.
    + assert (Hnone : sub_method op this = None).
      { destruct (sub_method op this) as [f|] eqn:Hf; [|done].
        assert (is_Some (sub_method op this)) as Hsome by (by rewrite Hf).
        apply sub_method_service in Hsome. congruence. }
      rewrite call_forward_spec. unfold forward_spec. go_unfold.
      by rewrite Hl, Hnone.
Qed.

(** X7.  A client that a constructor returned with a nil error can be used:
    every method called on it returns, never panics, and what it returns is
    the answer of one request to the sub-client the facade holds for the
    service of the method. *)
Theorem constructed_client_serves_every_method (σ σ' : State) (c : option loc)
    (op : Op) (input : option (Input op)) :
  constructed σ c σ' →
  ∃ l this f, c = Some l ∧ heap σ' !! l = Some this
    ∧ sub_method op this = Some f
    ∧ call op c input σ' =
        Returned (f input (world σ')).1
          {| world := (f input (world σ')).2;
             trace := trace σ' ++ [EvCall op input (f input (world σ')).1];
             heap := heap σ' |}.
Proof.
  intros Hcons.
  assert (Hok : ∃ l, c = Some l ∧ facade_ok σ' l).
  { destruct Hcons as [(profile & region & configFile & Hret)|(inp & Hret)].
    - pose proof (NewAwsClient_run_sound profile region configFile σ) as Hrun.
      rewrite Hret in Hrun. inversion Hrun; subst.
      eexists. split; [reflexivity|]. by eapply facade_ok_new.
    - pose proof (NewAwsClientWithInput_run_sound inp σ) as Hrun.
      rewrite Hret in Hrun. inversion Hrun; subst.
      eexists. split; [reflexivity|]. by eapply facade_ok_new. }
  destruct Hok as (l & -> & Hok).
  destruct (call_returns op σ' l input Hok) as (this & f & Hl & Hf & Hcall).
  by exists l, this, f.
Qed.

(** X9.  The facade keeps nothing between calls: two methods called one
    after the other on the same client are the two requests to the
    sub-clients one after the other, the second on the world the first
    left, and both are logged in that order. *)
Theorem forwarding_calls_compose (op1 op2 : Op) (σ : State) (l : loc)
    (this : AwsClient) (f1 : SubCall op1) (f2 : SubCall op2)
    (x1 : option (Input op1)) (x2 : option (Input op2)) :
  heap σ !! l = Some this →
  sub_method op1 this = Some f1 →
  sub_method op2 this = Some f2 →
  let r1 := (f1 x1 (world σ)).1 in
  let w1 := (f1 x1 (world σ)).2 in
  let r2 := (f2 x2 w1).1 in
  let w2 := (f2 x2 w1).2 in
  (r1 ← call op1 (Some l) x1; r2 ← call op2 (Some l) x2; mret (r1, r2)) σ =
    Returned (r1, r2)
      {| world := w2;
         trace := trace σ ++ [EvCall op1 x1 r1; EvCall op2 x2 r2];
         heap := heap σ |}.
Proof.
  intros Hl Hf1 Hf2 r1 w1 r2 w2. subst r1 w1 r2 w2.
  unfold mbind at 1, Go_bind. rewrite call_forward_spec.
  unfold forward_spec at 1. go_unfold.
  rewrite Hl, Hf1; simpl.
  destruct (f1 x1 (world σ)) as [r1 w1]; simpl.
  rewrite call_forward_spec. unfold forward_spec. go_unfold.
  rewrite Hl, Hf2; simpl.
  destruct (f2 x2 w1) as [r2 w2]; simpl.
  by rewrite <- !(assoc_L (++)).
Qed.

End Properties.

(** ** The claims on the test double *)

(** C1 (the code departs from the claim).  With an empty config file, a
    session that is created, and a credential probe that fails with a plain
    error (one that does not implement [awserr.Error]), [NewAwsClient]
    probes once, gets the error, and still returns a non-nil client and a
    nil error: the failed probe is not reported. *)
Theorem NewAwsClient_returns_client_after_failed_probe :
  let o := NewAwsClient (sdk := Mock.sdk None None (Some Mock.stdin_error))
             "default" "us-east-1" "" Mock.σ0 in
  credential_probes (calls Mock.σ0 o)
    = [(initial_options "default" "us-east-1", Some Mock.stdin_error)]
  ∧ (∃ σ', o = Returned (Some 1%positive, None) σ')
  ∧ ¬ probe_failures_reported Mock.σ0 o.
Proof.
  intros o.
  assert (Hp : credential_probes (calls Mock.σ0 o)
               = [(initial_options "default" "us-east-1", Some Mock.stdin_error)])
    by (vm_compute; reflexivity).
  split; [exact Hp|]. split.
  - eexists. vm_compute. reflexivity.
  - intros Hrep.
    destruct (Hrep (initial_options "default" "us-east-1") Mock.stdin_error)
      as (message & σ' & Heq).
    + rewrite Hp. apply list_elem_of_singleton. reflexivity.
    + vm_compute in Heq. discriminate Heq.
Qed.

Lemma NewAwsClient_swallows_non_awserr_error_witness :
  let o := NewAwsClient (sdk := Mock.sdk None None (Some Mock.stdin_error))
             "default" "us-east-1" "cfg/aws" Mock.σ0 in
  let sess := with_config_file (initial_options "default" "us-east-1") "/home/osd/cfg/aws" in
  EvCredentialsGet sess (Mock.no_value, Some Mock.stdin_error) ∈ calls Mock.σ0 o
  ∧ assert_awserr (Some Mock.stdin_error) = None
  ∧ ∃ l σ', o = Returned (Some l, None) σ' ∧ facade_ok σ' l.
Proof.
  intros o sess.
  assert (Hin : EvCredentialsGet sess (Mock.no_value, Some Mock.stdin_error)
                ∈ calls Mock.σ0 o)
    by (vm_compute; repeat constructor).
  split; [exact Hin|]. split; [reflexivity|].
  apply (NewAwsClient_swallows_non_awserr_error
           (sdk := Mock.sdk None None (Some Mock.stdin_error))
           "default" "us-east-1" "cfg/aws" Mock.σ0 sess Mock.no_value Mock.stdin_error);
    [exact Hin|reflexivity].
Defined.

(** C3 (the claim fails as stated).  When [filepath.Abs] fails on the config
    file, the failure is a construction failure and the error that comes
    back is not wrapped. *)
Lemma NewAwsClient_abs_error_not_wrapped :
  ¬ failures_wrapped_and_returned Mock.σ0
      (NewAwsClient (sdk := Mock.sdk (Some Mock.getwd_error) None None)
         "default" "us-east-1" "cfg/aws" Mock.σ0).
Proof.
  intros Hclaim.
  destruct (Hclaim (EvAbs "cfg/aws" ("", Some Mock.getwd_error)) Mock.getwd_error)
    as (message & σ' & Heq).
  - vm_compute. constructor.
  - reflexivity.
  - vm_compute in Heq. discriminate Heq.
Qed.

(** The same run with a session that cannot be created: [session.Must]
    panics with the error of the session, and nothing is returned. *)
Example NewAwsClient_session_error_panics :
  ∃ σ', NewAwsClient (sdk := Mock.sdk None (Some Mock.load_error) None)
          "default" "us-east-1" "cfg/aws" Mock.σ0
        = Panicked (PanicError Mock.load_error) σ'.
Proof. eexists. vm_compute. reflexivity. Qed.

Lemma NewAwsClient_failure_reports_witness :
  let o := NewAwsClient (sdk := Mock.sdk None None (Some Mock.no_providers))
             "default" "us-east-1" "cfg/aws" Mock.σ0 in
  let sess := with_config_file (initial_options "default" "us-east-1") "/home/osd/cfg/aws" in
  let ev := EvCredentialsGet sess (Mock.no_value, Some Mock.no_providers) in
  ev ∈ calls Mock.σ0 o
  ∧ construction_failure ev = Some Mock.no_providers
  ∧ assert_awserr (Some Mock.no_providers) = Some Mock.no_providers
  ∧ failure_report Mock.no_providers ev o
  ∧ omap construction_failure (calls Mock.σ0 o) = [Mock.no_providers]
  ∧ last (calls Mock.σ0 o) = Some ev
  ∧ heap (final o) = heap Mock.σ0.
Proof.
  intros o sess ev.
  assert (Hin : ev ∈ calls Mock.σ0 o) by (vm_compute; repeat constructor).
  split; [exact Hin|]. split; [reflexivity|]. split; [reflexivity|].
  apply (NewAwsClient_failure_reports
           (sdk := Mock.sdk None None (Some Mock.no_providers))
           "default" "us-east-1" "cfg/aws" Mock.σ0 ev Mock.no_providers);
    [exact Hin|reflexivity|].
  intros sess' res Hev. reflexivity.
Defined.

Lemma forwarding_is_pass_through_witness :
  let denied := Some (AwsErr "NoSuchEntity" "no such user") in
  heap Mock.σ1 !! 1%positive = Some Mock.facade
  ∧ sub_method OpGetUser Mock.facade = Some (iam_GetUser Mock.iam)
  ∧ iam_GetUser Mock.iam (Some "osd-user") (world Mock.σ1) = ((None, denied), 1)
  ∧ call OpGetUser (Some 1%positive) (Some "osd-user") Mock.σ1 =
      Returned (None, denied)
        {| world := 1;
           trace := trace Mock.σ1 ++ [EvCall OpGetUser (Some "osd-user") (None, denied)];
           heap := heap Mock.σ1 |}.
Proof.
  intros denied.
  split; [reflexivity|]. split; [reflexivity|]. split; [reflexivity|].
  apply (forwarding_is_pass_through OpGetUser Mock.σ1 1%positive Mock.facade
           (iam_GetUser Mock.iam) (Some "osd-user") None denied 1);
    reflexivity.
Defined.

Lemma NewAwsClient_config_file_made_absolute_witness :
  let o := NewAwsClient (sdk := Mock.sdk None None None)
             "default" "us-east-1" "cfg/aws" Mock.σ0 in
  let opt := with_config_file (initial_options "default" "us-east-1") "/home/osd/cfg/aws" in
  "cfg/aws" ≠ ""
  ∧ ∃ rest, calls Mock.σ0 o = EvAbs "cfg/aws" ("/home/osd/cfg/aws", None) :: rest
      ∧ session_options rest = [opt]
      ∧ Forall (λ opt, SharedConfigFiles opt = ["/home/osd/cfg/aws"]) (session_options rest).
Proof.
  intros o opt.
  assert (Hne : "cfg/aws" ≠ "") by discriminate.
  split; [exact Hne|].
  exact (NewAwsClient_config_file_made_absolute
           (sdk := Mock.sdk None None None)
           "default" "us-east-1" "cfg/aws" Mock.σ0 Hne).
Defined.

Lemma NewAwsClientWithInput_succeeds_witness :
  let s := {| opt_Config := static_config Mock.input; Profile := ""; SharedConfigFiles := [] |} in
  session_NewSession (SDK := Mock.sdk None None None)
    (static_config Mock.input) (world Mock.σ0) = (inl s, 0)
  ∧ ∃ l σ', NewAwsClientWithInput (sdk := Mock.sdk None None None)
              (Some Mock.input) Mock.σ0 = Returned (Some l, None) σ'
      ∧ heap σ' !! l = Some (facade_of (sdk := Mock.sdk None None None) s).
Proof.
  intros s. split; [reflexivity|].
  apply (NewAwsClientWithInput_succeeds (sdk := Mock.sdk None None None)
           Mock.input Mock.σ0 s 0).
  reflexivity.
Defined.

Lemma subclients_nonnil_after_construction_witness :
  let sdk := Mock.sdk None None None in
  let o1 := NewAwsClient (sdk := sdk) "default" "us-east-1" "" Mock.σ0 in
  let o2 := NewAwsClientWithInput (sdk := sdk) (Some Mock.input) Mock.σ0 in
  (∃ l, Some 1%positive = Some l ∧ facade_ok (final o1) l)
  ∧ (∃ l, Some 1%positive = Some l ∧ facade_ok (final o2) l)
  ∧ facade_ok Mock.σ1 1%positive
  ∧ facade_ok (final (call OpDeleteBucket (Some 1%positive) None Mock.σ1)) 1%positive
  ∧ facade_ok (final (NewAwsClient (sdk := sdk) "default" "us-east-1" "" Mock.σ1)) 1%positive
  ∧ facade_ok (final (NewAwsClientWithInput (sdk := sdk) (Some Mock.input) Mock.σ1)) 1%positive.
Proof.
  intros sdk o1 o2.
  destruct (subclients_nonnil_after_construction (sdk := sdk)) as (Hnew & Hinput & Hkeep).
  assert (Hok : facade_ok Mock.σ1 1%positive).
  { exists Mock.facade. split; [reflexivity|]. unfold subclients_nonnil. simpl. eauto. }
  destruct (Hkeep Mock.σ1 1%positive Hok) as (Hcall & Hn & Hi).
  split; [|split; [|split; [|split; [|split]]]].
  - apply (Hnew "default" "us-east-1" "" Mock.σ0 (Some 1%positive) (final o1)).
    vm_compute. reflexivity.
  - apply (Hinput (Some Mock.input) Mock.σ0 (Some 1%positive) (final o2)).
    vm_compute. reflexivity.
  - exact Hok.
  - apply Hcall.
  - apply Hn.
  - apply Hi.
Defined.

(** ** The further properties on the test double *)

Lemma NewAwsClient_succeeds_witness :
  let sdk := Mock.sdk None None None in
  let opt := with_config_file (initial_options "default" "us-east-1") "/home/osd/cfg/aws" in
  let evs := [EvAbs "cfg/aws" ("/home/osd/cfg/aws", None)] in
  config_step (sdk := sdk) "default" "us-east-1" "cfg/aws" (world Mock.σ0) evs 0 (inl opt)
  ∧ session_NewSessionWithOptions (SDK := sdk) opt 0 = (inl opt, 0)
  ∧ Credentials_Get (SDK := sdk) opt 0 = ((Mock.value, None), 0)
  ∧ ∃ l σ', NewAwsClient (sdk := sdk) "default" "us-east-1" "cfg/aws" Mock.σ0
              = Returned (Some l, None) σ'
      ∧ heap σ' !! l = Some (facade_of (sdk := sdk) opt)
      ∧ world σ' = 0
      ∧ calls Mock.σ0 (NewAwsClient (sdk := sdk) "default" "us-east-1" "cfg/aws" Mock.σ0)
          = evs ++ [EvNewSessionWithOptions opt (inl opt);
                    EvCredentialsGet opt (Mock.value, None)].
Proof.
  intros sdk opt evs.
  assert (Hc : config_step (sdk := sdk) "default" "us-east-1" "cfg/aws"
                 (world Mock.σ0) evs 0 (inl opt)).
  { apply (config_abs (sdk := sdk)); [discriminate|reflexivity]. }
  split; [exact Hc|]. split; [reflexivity|]. split; [reflexivity|].
  apply (NewAwsClient_succeeds (sdk := sdk) "default" "us-east-1" "cfg/aws"
           Mock.σ0 evs 0 0 0 opt opt Mock.value Hc); reflexivity.
Defined.

Lemma call_panics_iff_subclient_missing_witness :
  heap Mock.σ2 !! 1%positive = Some Mock.sts_only
  ∧ has_subclient (service_of OpListBuckets) Mock.sts_only = false
  ∧ call OpListBuckets None None Mock.σ2 = Panicked NilDereference Mock.σ2
  ∧ call OpListBuckets (Some 1%positive) None Mock.σ2 = Panicked NilDereference Mock.σ2.
Proof.
  split; [reflexivity|]. split; [reflexivity|].
  exact (call_panics_iff_subclient_missing OpListBuckets Mock.σ2 1%positive
           Mock.sts_only None eq_refl).
Defined.

Lemma constructed_client_serves_every_method_witness :
  let sdk := Mock.sdk None None None in
  let σ' := final (NewAwsClientWithInput (sdk := sdk) (Some Mock.input) Mock.σ0) in
  constructed (sdk := sdk) Mock.σ0 (Some 1%positive) σ'
  ∧ ∃ l this f, Some 1%positive = Some l ∧ heap σ' !! l = Some this
      ∧ sub_method OpAssumeRole this = Some f
      ∧ call OpAssumeRole (Some 1%positive) (Some "arn:aws:iam::123456789012:role/osd") σ' =
          Returned (f (Some "arn:aws:iam::123456789012:role/osd") (world σ')).1
            {| world := (f (Some "arn:aws:iam::123456789012:role/osd") (world σ')).2;
               trace := trace σ' ++
                 [EvCall OpAssumeRole (Some "arn:aws:iam::123456789012:role/osd")
                    (f (Some "arn:aws:iam::123456789012:role/osd") (world σ')).1];
               heap := heap σ' |}.
Proof.
  intros sdk σ'.
  assert (Hcons : constructed (sdk := sdk) Mock.σ0 (Some 1%positive) σ').
  { right. exists (Some Mock.input). vm_compute. reflexivity. }
  split; [exact Hcons|].
  exact (constructed_client_serves_every_method (sdk := sdk) Mock.σ0 σ'
           (Some 1%positive) OpAssumeRole
           (Some "arn:aws:iam::123456789012:role/osd") Hcons).
Defined.

Lemma NewAwsClient_panics_only_on_session_error_witness :
  let sdk := Mock.sdk None (Some Mock.load_error) None in
  let o := NewAwsClient (sdk := sdk) "default" "us-east-1" "" Mock.σ0 in
  o = Panicked (PanicError Mock.load_error) (final o)
  ∧ ∃ opt e, PanicError Mock.load_error = PanicError e
      ∧ last (calls Mock.σ0 o) = Some (EvNewSessionWithOptions opt (inr e))
      ∧ credential_probes (calls Mock.σ0 o) = []
      ∧ heap (final o) = heap Mock.σ0.
Proof.
  intros sdk o.
  assert (Hp : o = Panicked (PanicError Mock.load_error) (final o))
    by (vm_compute; reflexivity).
  split; [exact Hp|].
  exact (NewAwsClient_panics_only_on_session_error (sdk := sdk)
           "default" "us-east-1" "" Mock.σ0 (final o)
           (PanicError Mock.load_error) Hp).
Defined.

Lemma forwarding_calls_compose_witness :
  heap Mock.σ1 !! 1%positive = Some Mock.facade
  ∧ sub_method OpCreateUser Mock.facade = Some (iam_CreateUser Mock.iam)
  ∧ sub_method OpDeleteBucket Mock.facade = Some (s3_DeleteBucket Mock.s3)
  ∧ (r1 ← call OpCreateUser (Some 1%positive) (Some "osd-user");
     r2 ← call OpDeleteBucket (Some 1%positive) (Some "bucket-a");
     mret (r1, r2)) Mock.σ1 =
      Returned ((Some "osd-user", None),
                (None, Some (AwsErr "NoSuchBucket" "no such bucket")))
        {| world := 2;
           trace := trace Mock.σ1 ++
             [EvCall OpCreateUser (Some "osd-user") (Some "osd-user", None);
              EvCall OpDeleteBucket (Some "bucket-a")
                (None, Some (AwsErr "NoSuchBucket" "no such bucket"))];
           heap := heap Mock.σ1 |}.
Proof.
  split; [reflexivity|]. split; [reflexivity|]. split; [reflexivity|].
  exact (forwarding_calls_compose OpCreateUser OpDeleteBucket Mock.σ1 1%positive
           Mock.facade (iam_CreateUser Mock.iam) (s3_DeleteBucket Mock.s3)
           (Some "osd-user") (Some "bucket-a") eq_refl eq_refl eq_refl).
Defined.
